(** * TempWalletsNotifyBot: a shallow embedding of [app.py] and [telegram_bot.py]

    The two Python modules are near-duplicate variants of the same bot:
    a Flask HTTP surface in front of a python-telegram-bot [Application].
    Each section below embeds one piece of the source:
    - [PyVal]: the Python values a JSON request body decodes to, with
      Python truthiness and [dict.get];
    - [Notify]: the [/send_telegram_notification] endpoint of both files,
      including how the caller waits (or does not wait) on the future
      returned by [asyncio.run_coroutine_threadsafe];
    - [Config]: reading [TELEGRAM_BOT_TOKEN] at import time;
    - [Text]: [str()], [str.lower], [str.split] and slicing;
    - [StartReply]: the [/start] reply with its HTML mention;
    - [Commands]: [CommandHandler], [Application.add_handler],
      [Application.process_update] and the two callbacks;
    - [Webhook]: [set_telegram_webhook_async] and the [__main__] block of
      [app.py];
    - [Routes]: the [/telegram-webhook] route of [app.py]. *)

From Stdlib Require Import String Ascii ZArith List Lia Bool.
Import ListNotations.
Open Scope string_scope.
Set Warnings "-register-all".

(* ------------------------------------------------------------------ *)
(** ** Python values decoded from a JSON body *)

Module PyVal.

(** The values [request.json] can produce (JSON floats are left out). *)
Inductive pyval : Type :=
| PNone
| PBool (b : bool)
| PInt (z : Z)
| PStr (s : string)
| PList (xs : list pyval)
| PDict (kvs : list (string * pyval)).

(** A decoded JSON object: its items, keys pairwise distinct. *)
Definition pydict := list (string * pyval).

(** [bool(v)] in Python. *)
Definition truthy (v : pyval) : bool :=
  match v with
  | PNone => false
  | PBool b => b
  | PInt z => negb (Z.eqb z 0)
  | PStr s => negb (String.eqb s "")
  | PList [] => false
  | PList _ => true
  | PDict [] => false
  | PDict _ => true
  end.

(** [d.get(k)]: the value under [k], or [None]. *)
Fixpoint dict_get (d : pydict) (k : string) : pyval :=
  match d with
  | [] => PNone
  | (k', v) :: rest => if String.eqb k k' then v else dict_get rest k
  end.

End PyVal.

(* ------------------------------------------------------------------ *)
(** ** The notification endpoint *)

Module Notify.
Import PyVal.

(** What a [bot.send_message] coroutine ends with once it has run. *)
Inductive outcome : Type :=
| SendOk
| SendErr (msg : string).

(** A Flask response: the status code and the [jsonify]'d body. *)
Record response : Type := mk_response {
  status : Z;
  body : list (string * string)
}.

(** One [bot.send_message(chat_id=..., text=...)] coroutine handed to the
    bot's event loop. *)
Record send_call : Type := mk_send_call {
  sc_chat_id : pyval;
  sc_text : pyval
}.

(** The state of the [concurrent.futures.Future] over time: [fut t] is
    [Some o] once the coroutine has finished with [o]. *)
Definition future := nat -> option outcome.

(** [future.result()] with no timeout, observed at time [t]: the first
    completion seen up to [t], [None] while the caller is still blocked. *)
Fixpoint result_by (fut : future) (t : nat) : option outcome :=
  match t with
  | O => fut O
  | S t' =>
      match result_by fut t' with
      | Some o => Some o
      | None => fut (S t')
      end
  end.

Inductive variant : Type := AppPy | BotPy.

(** [asyncio.run_coroutine_threadsafe] either hands the coroutine to the
    loop ([None]) or raises with the given message. *)
Definition submission := option string.

(** What [asyncio.run_coroutine_threadsafe(..., bot_application.loop)]
    does in both files as shipped: python-telegram-bot's [Application]
    declares [__slots__] with no [loop] attribute, so evaluating the
    argument [bot_application.loop] raises [AttributeError] inside the
    [try] block, before anything is handed to an event loop. *)
Definition shipped_handoff : submission :=
  Some "'Application' object has no attribute 'loop'".

Definition missing_response : response :=
  mk_response 400 [("error", "Missing chat_id or message")].

(** [send_telegram_notification] of [app.py] (lines 92-118), at time [t]:
    the send calls made and the response, [None] while [.result()] blocks. *)
Definition handle_app (data : pydict) (sub : submission) (fut : future) (t : nat)
  : list send_call * option response :=
  let chat_id := dict_get data "chat_id" in
  let message_text := dict_get data "message" in
  if negb (truthy chat_id) || negb (truthy message_text) then
    ([], Some missing_response)
  else
    match sub with
    | Some e => ([], Some (mk_response 500 [("error", e)]))
    | None =>
        ([mk_send_call chat_id message_text],
         match result_by fut t with
         | None => None
         | Some SendOk => Some (mk_response 200 [("status", "Message sent")])
         | Some (SendErr e) => Some (mk_response 500 [("error", e)])
         end)
    end.

(** [send_telegram_notification] of [telegram_bot.py] (lines 49-66): the
    future is dropped, so the response does not depend on it. *)
Definition handle_bot (data : pydict) (sub : submission) (fut : future) (t : nat)
  : list send_call * option response :=
  let chat_id := dict_get data "chat_id" in
  let message_text := dict_get data "message" in
  if negb (truthy chat_id) || negb (truthy message_text) then
    ([], Some missing_response)
  else
    match sub with
    | Some e => ([], Some (mk_response 500 [("error", e)]))
    | None =>
        ([mk_send_call chat_id message_text],
         Some (mk_response 200 [("status", "Message queued for sending")]))
    end.

Definition handle (v : variant) : pydict -> submission -> future -> nat ->
  list send_call * option response :=
  match v with
  | AppPy => handle_app
  | BotPy => handle_bot
  end.

End Notify.

(* ------------------------------------------------------------------ *)
(** ** Reading the bot token at import time *)

Module Config.

(** The process environment, as [os.getenv] sees it. *)
Definition env := string -> option string.

(** What importing the module does: raise, or go on with a token.
    [logs] are the messages logged on the way. *)
Inductive startup : Type :=
| Raised (exn : string) (msg : string) (logs : list string)
| Loaded (token : string) (logs : list string).

(** [app.py] lines 19-24: [if not TOKEN: ... raise ValueError(...)]. *)
Definition load_token_app (e : env) : startup :=
  let err := Raised "ValueError" "TELEGRAM_BOT_TOKEN environment variable is missing."
               ["TELEGRAM_BOT_TOKEN environment variable not set. The bot will not function."] in
  match e "TELEGRAM_BOT_TOKEN" with
  | None => err
  | Some t => if String.eqb t "" then err else Loaded t []
  end.

Definition fallback_token := "YOUR_FALLBACK_DEV_TOKEN".

(** [telegram_bot.py] lines 18-20, then the [Bot] that line 26 builds,
    which raises [InvalidToken] for an empty token. *)
Definition load_token_bot (e : env) : startup :=
  let token := match e "TELEGRAM_BOT_TOKEN" with
               | None => fallback_token
               | Some t => t
               end in
  let logs := if String.eqb token fallback_token then
                ["TELEGRAM_BOT_TOKEN environment variable not set. Using fallback token. This is NOT recommended for production."]
              else [] in
  if String.eqb token "" then
    Raised "InvalidToken" "You must pass the token you received from https://t.me/Botfather!" logs
  else Loaded token logs.

(** An environment holding exactly the given variables. *)
Fixpoint env_of (vars : list (string * string)) : env :=
  fun k => match vars with
           | [] => None
           | (k', v) :: rest => if String.eqb k k' then Some v else env_of rest k
           end.

End Config.

(* ------------------------------------------------------------------ *)
(** ** Command handlers *)

(* ------------------------------------------------------------------ *)
(** ** String helpers shared by the handlers *)

Module Text.

Definition nl : string := String (ascii_of_nat 10) "".

(** [str(n)] for a Python [int]. *)
Definition digit (d : N) : ascii := ascii_of_N (48 + d).

Fixpoint digits_of (fuel : nat) (n : N) (acc : string) : string :=
  match fuel with
  | O => acc
  | S f =>
      let acc' := String (digit (N.modulo n 10)) acc in
      if N.ltb n 10 then acc' else digits_of f (N.div n 10) acc'
  end.

Definition str_of_Z (z : Z) : string :=
  match z with
  | Z0 => "0"
  | Zpos p => digits_of (Pos.size_nat p) (Npos p) ""
  | Zneg p => "-" ++ digits_of (Pos.size_nat p) (Npos p) ""
  end.

(** [str.lower()] on ASCII text. *)
Definition lower_ascii (c : ascii) : ascii :=
  let n := nat_of_ascii c in
  if Nat.leb 65 n && Nat.leb n 90 then ascii_of_nat (n + 32)%nat else c.

Fixpoint lower (s : string) : string :=
  match s with
  | EmptyString => EmptyString
  | String c s' => String (lower_ascii c) (lower s')
  end.

(** [s.split(c)] for a one-character separator [c]: never empty, and
    the empty string splits to a list holding the empty string. *)
Fixpoint split_on (c : ascii) (s : string) : list string :=
  match s with
  | EmptyString => [EmptyString]
  | String c' s' =>
      let rest := split_on c s' in
      if Ascii.eqb c' c then EmptyString :: rest
      else match rest with
           | [] => [String c' EmptyString]
           | r :: rs => String c' r :: rs
           end
  end.

(** [text[1:n]]: Python slicing from index 1 to index [n], clipped to the
    string. *)
Definition slice_1 (n : nat) (text : string) : string :=
  substring 1 (n - 1) text.

End Text.

(* ------------------------------------------------------------------ *)
(** ** The [/start] reply and the user it mentions *)

Module StartReply.
Import Text.

Definition dq : ascii := ascii_of_nat 34.

(** [s.replace(c, rep)] for a one-character [c]. *)
Fixpoint replace_char (c : ascii) (rep : string) (s : string) : string :=
  match s with
  | EmptyString => EmptyString
  | String c' s' =>
      if Ascii.eqb c' c then rep ++ replace_char c rep s'
      else String c' (replace_char c rep s')
  end.

(** Python's [html.escape(s, quote=True)]: five replacements, [&] first. *)
Definition html_escape (s : string) : string :=
  let s := replace_char "&"%char "&amp;" s in
  let s := replace_char "<"%char "&lt;" s in
  let s := replace_char ">"%char "&gt;" s in
  let s := replace_char dq "&quot;" s in
  replace_char "'"%char "&#x27;" s.

(** The fields of a [telegram.User] the reply reads. *)
Record user : Type := mk_user {
  user_id : Z;
  first_name : string;
  last_name : option string
}.

(** [User.full_name]. *)
Definition full_name (usr : user) : string :=
  match last_name usr with
  | Some l => if String.eqb l EmptyString then first_name usr
              else first_name usr ++ " " ++ l
  | None => first_name usr
  end.

(** [helpers.mention_html(user_id, name)]. *)
Definition mention_html_of (user_id : Z) (name : string) : string :=
  "<a href=" ++ String dq ("tg://user?id=" ++ str_of_Z user_id ++ String dq ">") ++
  html_escape name ++ "</a>".

(** [User.mention_html()] with no [name] argument. *)
Definition mention_html (usr : user) : string :=
  mention_html_of (user_id usr) (full_name usr).

(** [start] (app.py lines 42-49, telegram_bot.py lines 28-33): the one
    [reply_html] text. *)
Definition start_html (usr : user) : list string :=
  [ "Hi " ++ mention_html usr ++ "! I'm your notification bot. " ++
    "Send /mychatid to get your unique Telegram Chat ID." ].

Fixpoint has_char (c : ascii) (s : string) : bool :=
  match s with
  | EmptyString => false
  | String c' s' => Ascii.eqb c' c || has_char c s'
  end.

End StartReply.

(* ------------------------------------------------------------------ *)
(** ** Command handlers and update dispatch *)

Module Commands.
Import Text StartReply.

(** A computation that returns a value or raises [exn] with a message. *)
Inductive raises (A : Type) : Type :=
| Ret (a : A)
| Exc (exn : string) (msg : string).
Arguments Ret {A} a.
Arguments Exc {A} exn msg.

Definition bind {A B : Type} (m : raises A) (k : A -> raises B) : raises B :=
  match m with
  | Ret a => k a
  | Exc e msg => Exc e msg
  end.

(** The field of a [telegram.Update] that carries its message. *)
Inductive kind : Type :=
| KMessage
| KEditedMessage
| KChannelPost
| KEditedChannelPost.

(** The fields of a [telegram.Update] that [CommandHandler] and the two
    callbacks read: which field carries the message, the effective chat's
    id, the effective user ([None] for a channel post), the message text,
    and the length of [entities[0]] when that entity is a [bot_command] at
    offset 0 ([None] otherwise, or when there are no entities). *)
Record update : Type := mk_update {
  upd_kind : kind;
  upd_chat_id : Z;
  upd_user : option user;
  upd_text : string;
  upd_command_entity : option nat
}.

(** What running a callback does: the texts it sends through
    [update.message.reply_*], or the exception it raises. *)
Inductive cb_result : Type :=
| Replied (texts : list string)
| CbRaised (exn : string) (msg : string).

Definition callback := update -> cb_result.

(** [update.message.<meth>(text)]: [update.message] is set only for a new
    message; for any other kind it is [None] and the attribute lookup
    raises. *)
Definition reply (meth : string) (u : update) (text : string) : cb_result :=
  match upd_kind u with
  | KMessage => Replied [text]
  | _ => CbRaised "AttributeError" ("'NoneType' object has no attribute '" ++ meth ++ "'")
  end.

(** [update.effective_user.first_name if update.effective_user.first_name
    else "User"]. *)
Definition user_name (usr : user) : string :=
  if String.eqb (first_name usr) "" then "User" else first_name usr.

Definition no_user_first_name : cb_result :=
  CbRaised "AttributeError" "'NoneType' object has no attribute 'first_name'".

(** [my_chat_id] of [app.py] (lines 51-62). *)
Definition my_chat_id_app : callback := fun u =>
  match upd_user u with
  | None => no_user_first_name
  | Some usr =>
      reply "reply_text" u
        ("Hello " ++ user_name usr ++ "!" ++ nl ++ nl ++
         "Your Telegram Chat ID is: `" ++ str_of_Z (upd_chat_id u) ++ "`" ++ nl ++ nl ++
         "Please copy this ID and use it for your notifications.")
  end.

(** [my_chat_id] of [telegram_bot.py] (lines 35-45). *)
Definition my_chat_id_bot : callback := fun u =>
  match upd_user u with
  | None => no_user_first_name
  | Some usr =>
      reply "reply_text" u
        ("Hello " ++ user_name usr ++ "!" ++ nl ++ nl ++
         "Your Telegram Chat ID is: `" ++ str_of_Z (upd_chat_id u) ++ "`" ++ nl ++ nl ++
         "Please copy this ID and paste it into the 'Telegram Notifications' section " ++
         "on the TempWallets website to enable transaction notifications.")
  end.

(** [start] (app.py lines 42-49, telegram_bot.py lines 28-33): the callee
    [update.message.reply_html] is looked up before the argument is
    built, then [user.mention_html()] is evaluated. *)
Definition start : callback := fun u =>
  match upd_kind u, upd_user u with
  | KMessage, Some usr => Replied (start_html usr)
  | KMessage, None =>
      CbRaised "AttributeError" "'NoneType' object has no attribute 'mention_html'"
  | _, _ => CbRaised "AttributeError" "'NoneType' object has no attribute 'reply_html'"
  end.

(** python-telegram-bot's [CommandHandler]: the command it answers (stored
    lower-cased) and its callback. *)
Record handler : Type := mk_handler {
  h_command : string;
  h_callback : callback
}.

Definition is_command_char (c : ascii) : bool :=
  let n := nat_of_ascii c in
  (Nat.leb 48 n && Nat.leb n 57) || (Nat.leb 97 n && Nat.leb n 122) || Nat.eqb n 95.

Fixpoint all_command_chars (s : string) : bool :=
  match s with
  | EmptyString => true
  | String c s' => is_command_char c && all_command_chars s'
  end.

(** [re.match(r"^[\da-z_]{1,32}$", command)]. *)
Definition valid_command (s : string) : bool :=
  Nat.leb 1 (String.length s) && Nat.leb (String.length s) 32 && all_command_chars s.

(** [CommandHandler(command, callback)]: the name is lower-cased, and a
    name that is not a valid bot command raises [ValueError]. *)
Definition CommandHandler (command : string) (cb : callback) : raises handler :=
  let c := lower command in
  if valid_command c then Ret (mk_handler c cb)
  else Exc "ValueError" ("Command `" ++ c ++ "` is not a valid bot command").

(** The default filter [filters.UpdateType.MESSAGES]: new and edited
    messages, not channel posts. *)
Definition messages_filter (u : update) : bool :=
  match upd_kind u with
  | KMessage | KEditedMessage => true
  | _ => false
  end.

(** [CommandHandler.check_update]: [entities[0]] must be a [bot_command] at
    offset 0; [command = text[1:entities[0].length]] is split on ["@"], the
    bot's username is appended, part 0 lower-cased must be the handler's
    command and part 1 lower-cased the bot's username lower-cased; then the
    filter decides. [None] and [False] both mean that the handler does not
    take the update. *)
Definition check_update (bot_username : string) (h : handler) (u : update) : bool :=
  match upd_command_entity u with
  | None => false
  | Some len =>
      if String.eqb (upd_text u) "" then false else
      let command_parts := List.app (split_on "@" (slice_1 len (upd_text u))) [bot_username] in
      match command_parts with
      | p0 :: p1 :: _ =>
          String.eqb (lower p0) (h_command h) &&
          String.eqb (lower p1) (lower bot_username) &&
          messages_filter u
      | _ => false
      end
  end.

(** The state of an [Application] that matters here: whether
    [initialize()] has completed, and the handlers of group 0. *)
Record application : Type := mk_application {
  initialized : bool;
  handlers : list handler
}.

(** [Application.builder().token(TOKEN).build()]. *)
Definition built : application := mk_application false [].

(** [Application.add_handler(h)] for the default group 0: the handler is
    appended; no check is made against the handlers already there. *)
Definition add_handler (app : application) (h : handler) : application :=
  mk_application (initialized app) (List.app (handlers app) [h]).

(** [bot_application.add_handler(CommandHandler(name, cb))]. *)
Definition register (app : application) (name : string) (cb : callback)
  : raises application :=
  bind (CommandHandler name cb) (fun h => Ret (add_handler app h)).

(** [await bot_application.initialize()]. *)
Definition initialize_awaited (app : application) : application :=
  mk_application true (handlers app).

(** [bot_application.initialize()] without [await]: the call only creates
    a coroutine, which is dropped unrun; the application is unchanged. *)
Definition initialize_not_awaited (app : application) : application :=
  app.

(** What a callback run sends: an exception it raises is caught by
    [process_update] and passed to the error handlers (there are none, so
    it is only logged), and nothing is sent. *)
Definition cb_texts (r : cb_result) : list string :=
  match r with
  | Replied texts => texts
  | CbRaised _ _ => []
  end.

(** The loop over group 0 in [Application.process_update]: the first
    handler whose [check_update] accepts the update runs, later ones are
    skipped. *)
Fixpoint dispatch (bot_username : string) (hs : list handler) (u : update)
  : list string :=
  match hs with
  | [] => []
  | h :: rest =>
      if check_update bot_username h u then cb_texts (h_callback h u)
      else dispatch bot_username rest u
  end.

(** [Application.process_update(update)]: it first checks that the
    application was initialized. [None] is what [Update.de_json] returns
    for a JSON [null]; no handler takes it. *)
Definition process_update (bot_username : string) (app : application)
  (ou : option update) : raises (list string) :=
  if initialized app then
    Ret (match ou with
         | Some u => dispatch bot_username (handlers app) u
         | None => []
         end)
  else Exc "RuntimeError" "This Application was not initialized via `Application.initialize`!".

(** The registrations of [app.py] lines 38 and 65-66, at import time. *)
Definition app_module_app : raises application :=
  bind (register built "start" start) (fun a => register a "mychatid" my_chat_id_app).

(** The application [app.py]'s Flask routes use once its [__main__] block
    has run line 147. *)
Definition app_serving : raises application :=
  bind app_module_app (fun a => Ret (initialize_not_awaited a)).

(** The handler lists of the two files (app.py lines 65-66,
    telegram_bot.py lines 70-71), as [CommandHandler] builds them. *)
Definition handlers_app : list handler :=
  [mk_handler "start" start; mk_handler "mychatid" my_chat_id_app].

Definition handlers_bot : list handler :=
  [mk_handler "start" start; mk_handler "mychatid" my_chat_id_bot].

(** How the [__main__] block of [telegram_bot.py] (lines 75-82) ends:
    line 77 calls [set_webhook()] with no [url], which raises [TypeError]
    at the call, before the polling thread that registers the handlers is
    started. *)
Inductive bot_main_end : Type :=
| BotMainRaised (exn : string) (msg : string)
| BotPolling (app : application).

Definition main_bot : bot_main_end :=
  let app := initialize_not_awaited built in
  let set_webhook_call : raises unit :=
    Exc "TypeError" "Bot.set_webhook() missing 1 required positional argument: 'url'" in
  match set_webhook_call with
  | Exc e msg => BotMainRaised e msg
  | Ret _ =>
      match bind (register app "start" start)
                 (fun a => register a "mychatid" my_chat_id_bot) with
      | Ret a => BotPolling (initialize_awaited a)
      | Exc e msg => BotMainRaised e msg
      end
  end.

End Commands.

(* ------------------------------------------------------------------ *)
(** ** Webhook registration at startup ([app.py]) *)

Module Webhook.

(** What the [__main__] block of [app.py] does, in order. [Initialize] is
    the call [bot_application.initialize()] of line 147, which only creates
    a coroutine and drops it (see [Commands.initialize_not_awaited]). *)
Inductive event : Type :=
| LogInfo (msg : string)
| LogWarning (msg : string)
| LogError (msg : string)
| LogCritical (msg : string)
| Initialize
| SetWebhook (url : string) (drop_pending_updates : bool)
| Exit (code : Z)
| RunFlask.

(** Python truthiness of [WEBHOOK_URL] as read by [os.getenv]. *)
Definition url_set (webhook_url : option string) : bool :=
  match webhook_url with
  | None => false
  | Some u => negb (String.eqb u "")
  end.

(** [app.py] lines 28-31, at import time. *)
Definition import_warnings (webhook_url : option string) : list event :=
  if url_set webhook_url then []
  else [LogWarning "WEBHOOK_URL environment variable not set. Webhook will not be set automatically.";
        LogWarning "You will need to manually set the webhook using Telegram Bot API if deploying."].

(** [set_telegram_webhook_async] (lines 122-140): the events it produces and
    the exception it re-raises, if any. *)
Definition set_telegram_webhook_async (webhook_url : option string)
    (set_result : option string) : list event * option string :=
  match webhook_url with
  | Some u =>
      if String.eqb u "" then
        ([LogWarning "WEBHOOK_URL environment variable not set. Webhook will not be set automatically.";
          LogWarning "Manual webhook setup might be required or the bot will not receive updates."], None)
      else
        let full_webhook_url := u ++ "/telegram-webhook" in
        let evs := [LogInfo ("Attempting to set webhook to: " ++ full_webhook_url);
                    SetWebhook full_webhook_url true] in
        match set_result with
        | None => (app evs [LogInfo "Telegram webhook set successfully."], None)
        | Some e => (app evs [LogError ("Failed to set Telegram webhook: " ++ e)], Some e)
        end
  | None =>
      ([LogWarning "WEBHOOK_URL environment variable not set. Webhook will not be set automatically.";
        LogWarning "Manual webhook setup might be required or the bot will not receive updates."], None)
  end.

(** The events of running [app.py] as a script, once the import has got
    past the token check: the import-time warnings of lines 28-31, then the
    [__main__] block (lines 144-164). [webhook_url] is [WEBHOOK_URL] as read
    by [os.getenv]; [set_result] is the outcome of [bot.set_webhook]:
    [None] if it returned, [Some e] if it raised [e]. *)
Definition main_app (webhook_url : option string) (set_result : option string)
  : list event :=
  let (evs, raised) := set_telegram_webhook_async webhook_url set_result in
  app (import_warnings webhook_url) (app [Initialize] (app evs
  match raised with
  | Some e => [LogCritical ("Critical error during webhook setup: " ++ e ++ ". Exiting."); Exit 1]
  | None => [LogInfo "Starting Flask API server..."; RunFlask]
  end)).

Definition is_set_webhook (ev : event) : bool :=
  match ev with SetWebhook _ _ => true | _ => false end.

Definition is_warning (ev : event) : bool :=
  match ev with LogWarning _ => true | _ => false end.

End Webhook.

(* ------------------------------------------------------------------ *)
(** ** The [/telegram-webhook] route ([app.py]) *)

Module Routes.
Import Commands.

(** A plain (non-JSON) HTTP answer. *)
Record http_response : Type := mk_http {
  http_status : Z;
  http_body : string
}.

(** The POST body as [request.get_json(force=True)] and [Update.de_json]
    see it: not JSON (Flask answers 400 before the view goes on), or a
    JSON object, from which [de_json] builds an update ([None] for a JSON
    [null]). *)
Inductive webhook_body : Type :=
| NotJson
| JsonUpdate (ou : option update).

(** [telegram_webhook] (lines 70-87) under Flask. The rule admits only
    [POST], so the view's non-POST return (line 87) is never reached and
    is left out. An exception raised by [process_update] escapes the view
    and Flask answers 500. The result pairs the replies sent with the
    answer. *)
Definition telegram_webhook (bot : string) (app : application) (b : webhook_body)
  : list string * http_response :=
  match b with
  | NotJson => ([], mk_http 400 "Bad Request")
  | JsonUpdate ou =>
      match process_update bot app ou with
      | Ret texts => (texts, mk_http 200 "ok")
      | Exc _ _ => ([], mk_http 500 "Internal Server Error")
      end
  end.

End Routes.

(* ================================================================== *)
(** * Properties *)

Import PyVal Notify Config Text StartReply Commands Routes.

(** ** Helper facts *)

Definition valid (d : pydict) : bool :=
  truthy (dict_get d "chat_id") && truthy (dict_get d "message").

(** A response reports outcome [o]: 200-class on success, 500-class on
    failure. *)
Definition reports (o : outcome) (r : response) : Prop :=
  match o with
  | SendOk => (200 <= status r < 300)%Z
  | SendErr _ => (500 <= status r < 600)%Z
  end.

Lemma result_by_none (fut : future) (t : nat) :
  result_by fut t = None <-> (forall t', (t' <= t)%nat -> fut t' = None).
Proof.
  induction t as [|t IH]; simpl.
  - split.
    + intros H t' Ht'. assert (t' = 0)%nat as -> by lia. exact H.
    + intros H. apply H. lia.
  - destruct (result_by fut t) as [o|] eqn:E.
    + split; [discriminate|].
      intros H.
      assert (Hn : Some o = None) by (apply IH; intros t' Ht'; apply H; lia).
      discriminate Hn.
    + split.
      * intros H t' Ht'.
        destruct (Nat.eq_dec t' (S t)) as [->|Hne]; [exact H|].
        apply (proj1 IH eq_refl). lia.
      * intros H. apply H. lia.
Qed.

Lemma handle_invalid (v : variant) (d : pydict) sub fut t :
  valid d = false -> handle v d sub fut t = ([], Some missing_response).
Proof.
  unfold valid. intros H.
  destruct v; simpl; unfold handle_app, handle_bot;
    destruct (truthy (dict_get d "chat_id")), (truthy (dict_get d "message"));
    simpl in *; congruence.
Qed.

(** ** C1 and C2: the hand-off to the bot's event loop *)

Definition sample_request : pydict :=
  [("chat_id", PStr "482910"); ("message", PStr "Hello")].

Definition loop_error_response : response :=
  mk_response 500 [("error", "'Application' object has no attribute 'loop'")].

(** C1 (code bug): as shipped, in both files, a valid request never
    reaches the bot. Evaluating [bot_application.loop] raises before the
    hand-off, so no [send_message] call is made, and the caller gets 500
    with the [AttributeError] text, whatever the send would have done. *)
Theorem C1_shipped_no_send (v : variant) (d : pydict) (fut : future) (t : nat) :
  valid d = true ->
  handle v d shipped_handoff fut t = ([], Some loop_error_response).
Proof.
  unfold valid. intros H.
  apply andb_prop in H as [H1 H2].
  destruct v; simpl; unfold handle_app, handle_bot; rewrite H1, H2; reflexivity.
Qed.

Lemma C1_witness :
  handle AppPy sample_request shipped_handoff (fun _ => Some SendOk) 3%nat =
    ([], Some loop_error_response).
Proof. apply C1_shipped_no_send. reflexivity. Defined.



(** ** C3 and C10: validation before any send *)

(** C3: when [chat_id] or [message] is missing (or [null]) or the empty
    string, both endpoints answer 400 with the error body and make no send
    call, whatever the loop would do. *)
Theorem C3_missing_or_empty_rejected (v : variant) (d : pydict) sub fut t :
  (dict_get d "chat_id" = PNone \/ dict_get d "chat_id" = PStr "" \/
   dict_get d "message" = PNone \/ dict_get d "message" = PStr "") ->
  handle v d sub fut t = ([], Some (mk_response 400 [("error", "Missing chat_id or message")])).
Proof.
  intros H. apply handle_invalid. unfold valid.
  destruct H as [H|[H|[H|H]]]; rewrite H; simpl;
    [reflexivity | reflexivity | apply andb_false_r | apply andb_false_r].
Qed.

Lemma C3_witness :
  handle AppPy [("chat_id", PStr "482910")] None (fun _ => Some SendOk) 0%nat =
    ([], Some (mk_response 400 [("error", "Missing chat_id or message")])).
Proof.
  apply C3_missing_or_empty_rejected. right. right. left. reflexivity.
Defined.

(** C10: every falsy [chat_id] or [message] (absent, [null], the empty
    string, [0], [false], an empty list or dict) gets the same 400 answer and no send call, in both
    variants. *)
Theorem C10_falsy_rejected_alike :
  forallb (fun x => negb (truthy x)) [PNone; PStr ""; PInt 0; PBool false; PList []; PDict []] = true /\
  (forall (v : variant) (d : pydict) sub fut t,
      truthy (dict_get d "chat_id") = false \/ truthy (dict_get d "message") = false ->
      handle v d sub fut t = ([], Some (mk_response 400 [("error", "Missing chat_id or message")]))).
Proof.
  split; [reflexivity|].
  intros v d sub fut t H. apply handle_invalid. unfold valid.
  destruct H as [H|H]; rewrite H; [reflexivity | apply andb_false_r].
Qed.

Lemma C10_witness :
  handle BotPy [("chat_id", PInt 0); ("message", PStr "Hello")] None (fun _ => Some SendOk) 0%nat =
    ([], Some (mk_response 400 [("error", "Missing chat_id or message")])).
Proof.
  apply (proj2 C10_falsy_rejected_alike). left. reflexivity.
Defined.
(** ** C4: the bot token *)

Inductive source_file : Type := AppFile | BotFile.

Definition load_token (f : source_file) : env -> startup :=
  match f with
  | AppFile => load_token_app
  | BotFile => load_token_bot
  end.

Definition is_raised (s : startup) : bool :=
  match s with Raised _ _ _ => true | Loaded _ _ => false end.

(** C4 (as stated, refuted): with no [TELEGRAM_BOT_TOKEN] in the
    environment, importing [telegram_bot.py] does not fail; it goes on with
    the hard-coded fallback token. *)
Lemma C4_counterexample :
  ~ (forall (f : source_file) (e : env), e "TELEGRAM_BOT_TOKEN" = None ->
       is_raised (load_token f e) = true) /\
  load_token BotFile (env_of []) =
    Loaded "YOUR_FALLBACK_DEV_TOKEN"
      ["TELEGRAM_BOT_TOKEN environment variable not set. Using fallback token. This is NOT recommended for production."].
Proof.
  split; [|reflexivity].
  intros H. specialize (H BotFile (env_of []) eq_refl). discriminate H.
Qed.

(** C4 (amended): in [app.py] an absent or empty [TELEGRAM_BOT_TOKEN]
    makes the import raise [ValueError] (no fallback), and a non-empty one
    is used as is; in [telegram_bot.py] an absent token is replaced by the
    fallback ["YOUR_FALLBACK_DEV_TOKEN"] with a logged warning and startup
    goes on. *)
Theorem C4_amended_token_loading (e : env) :
  ((e "TELEGRAM_BOT_TOKEN" = None \/ e "TELEGRAM_BOT_TOKEN" = Some EmptyString) ->
     exists msg logs, load_token_app e = Raised "ValueError" msg logs) /\
  (forall t, e "TELEGRAM_BOT_TOKEN" = Some t -> t <> EmptyString ->
     load_token_app e = Loaded t []) /\
  (e "TELEGRAM_BOT_TOKEN" = None ->
     exists logs, logs <> [] /\ load_token_bot e = Loaded fallback_token logs).
Proof.
  unfold load_token_app, load_token_bot.
  split; [|split].
  - intros [H|H]; rewrite H; simpl; eauto.
  - intros t H Ht. rewrite H.
    destruct (String.eqb t EmptyString) eqn:E; [apply String.eqb_eq in E; contradiction|].
    reflexivity.
  - intros H. rewrite H. simpl. eexists. split; [|reflexivity]. discriminate.
Qed.

Lemma C4_amended_witness :
  (exists msg logs, load_token_app (env_of []) = Raised "ValueError" msg logs) /\
  (exists logs, logs <> [] /\ load_token_bot (env_of []) = Loaded fallback_token logs).
Proof.
  pose proof (C4_amended_token_loading (env_of [])) as [H1 [_ H3]].
  split; [apply H1; left; reflexivity | apply H3; reflexivity].
Defined.

(** ** Facts about [CommandHandler] and dispatch *)

Lemma check_update_same_command (bot c c' : string) (f g : callback) (u : update) :
  check_update bot (mk_handler c f) u = true ->
  check_update bot (mk_handler c' g) u = true ->
  c = c'.
Proof.
  unfold check_update; simpl.
  destruct (upd_command_entity u) as [len|]; [|discriminate].
  destruct (String.eqb (upd_text u) "") ; [discriminate|].
  destruct (List.app (split_on "@" (slice_1 len (upd_text u))) [bot]) as [|p0 [|p1 rest]];
    try discriminate.
  intros H1 H2.
  apply andb_prop in H1 as [H1 _]. apply andb_prop in H1 as [H1 _].
  apply andb_prop in H2 as [H2 _]. apply andb_prop in H2 as [H2 _].
  apply String.eqb_eq in H1, H2. congruence.
Qed.

Lemma check_update_callback (bot c : string) (f g : callback) (u : update) :
  check_update bot (mk_handler c f) u = check_update bot (mk_handler c g) u.
Proof. reflexivity. Qed.

Lemma dispatch_first (bot : string) (hs rest : list handler) (h : handler) (u : update) :
  forallb (fun h' => negb (check_update bot h' u)) hs = true ->
  check_update bot h u = true ->
  dispatch bot (List.app hs (h :: rest)) u = cb_texts (h_callback h u).
Proof.
  induction hs as [|h' hs IH]; simpl; intros Hall Hh.
  - rewrite Hh. reflexivity.
  - apply andb_prop in Hall as [H1 H2].
    destruct (check_update bot h' u); [discriminate|]. auto.
Qed.

Lemma mychatid_dispatch (bot : string) (f : callback) (u : update) :
  check_update bot (mk_handler "mychatid" f) u = true ->
  dispatch bot handlers_app u = cb_texts (my_chat_id_app u) /\
  dispatch bot handlers_bot u = cb_texts (my_chat_id_bot u).
Proof.
  intros H.
  assert (Hs : check_update bot (mk_handler "start" start) u = false).
  { destruct (check_update bot (mk_handler "start" start) u) eqn:E; [|reflexivity].
    pose proof (check_update_same_command _ _ _ _ _ _ H E) as Hl. discriminate Hl. }
  assert (Hm : forall g, check_update bot (mk_handler "mychatid" g) u = true)
    by (intros g; rewrite (check_update_callback bot "mychatid" g f); exact H).
  unfold handlers_app, handlers_bot; simpl.
  rewrite Hs, !Hm. split; reflexivity.
Qed.

Lemma app_serving_eq : app_serving = Ret (mk_application false handlers_app).
Proof. reflexivity. Qed.

(** ** C5: registering command handlers *)

Definition update_of (text : string) (len : nat) : update :=
  mk_update KMessage 482910 (Some (mk_user 482910 "Ava" None)) text (Some len).




(** ** C6 and C9: the [/mychatid] reply *)

Lemma string_app_assoc (s1 s2 s3 : string) : (s1 ++ s2) ++ s3 = s1 ++ s2 ++ s3.
Proof. induction s1 as [|c s1 IH]; simpl; [reflexivity|]. rewrite IH. reflexivity. Qed.

(** The first [bot_command] entity of a [/mychatid] message as Telegram
    sends it: offset 0, length 9. *)
Definition mychatid_update (k : kind) (usr : user) (chat : Z) : update :=
  mk_update k chat (Some usr) "/mychatid" (Some 9%nat).

Lemma mychatid_update_checked (bot : string) (k : kind) (usr : user) (chat : Z) (f : callback) :
  k = KMessage \/ k = KEditedMessage ->
  check_update bot (mk_handler "mychatid" f) (mychatid_update k usr chat) = true.
Proof.
  intros Hk. unfold check_update; simpl. rewrite String.eqb_refl.
  destruct Hk as [-> | ->]; reflexivity.
Qed.

Lemma edited_mychatid_silent (bot : string) (usr : user) (chat : Z) :
  dispatch bot handlers_app (mychatid_update KEditedMessage usr chat) = [] /\
  dispatch bot handlers_bot (mychatid_update KEditedMessage usr chat) = [].
Proof.
  destruct (mychatid_dispatch bot my_chat_id_app (mychatid_update KEditedMessage usr chat)
              (mychatid_update_checked bot _ usr chat _ (or_intror eq_refl))) as [-> ->].
  split; reflexivity.
Qed.

Lemma shipped_webhook_fails (bot : string) (ou : option update) :
  telegram_webhook bot (mk_application false handlers_app) (JsonUpdate ou) =
    ([], mk_http 500 "Internal Server Error").
Proof. reflexivity. Qed.

Definition telegram_bot_main_error : bot_main_end :=
  BotMainRaised "TypeError" "Bot.set_webhook() missing 1 required positional argument: 'url'".





(** ** C7: webhook registration at startup *)

Module WebhookFacts.
Import Webhook.

Ltac not_in :=
  let H := fresh in
  intros H; simpl in H; repeat (destruct H as [H|H]; [discriminate H|]); exact H.

(** C7: in [app.py], with no (or an empty) [WEBHOOK_URL] startup makes no
    [set_webhook] call, logs warnings and goes on to serve; with a
    configured address it registers [<address>/telegram-webhook], and a
    failure of that call exits with status 1 before serving. *)
Theorem C7_webhook_registration (webhook_url set_result : option string) :
  (url_set webhook_url = false ->
     forallb (fun ev => negb (is_set_webhook ev)) (main_app webhook_url set_result) = true /\
     existsb is_warning (main_app webhook_url set_result) = true /\
     In RunFlask (main_app webhook_url set_result) /\
     ~ In (Exit 1) (main_app webhook_url set_result)) /\
  (forall u, webhook_url = Some u -> u <> EmptyString ->
     In (SetWebhook (u ++ "/telegram-webhook") true) (main_app webhook_url set_result) /\
     (forall e, set_result = Some e ->
        In (Exit 1) (main_app webhook_url set_result) /\
        ~ In RunFlask (main_app webhook_url set_result)) /\
     (set_result = None ->
        In RunFlask (main_app webhook_url set_result) /\
        ~ In (Exit 1) (main_app webhook_url set_result))).
Proof.
  split.
  - unfold url_set. intros Hurl.
    assert (Hm : main_app webhook_url set_result =
      [LogWarning "WEBHOOK_URL environment variable not set. Webhook will not be set automatically.";
       LogWarning "You will need to manually set the webhook using Telegram Bot API if deploying.";
       Initialize;
       LogWarning "WEBHOOK_URL environment variable not set. Webhook will not be set automatically.";
       LogWarning "Manual webhook setup might be required or the bot will not receive updates.";
       LogInfo "Starting Flask API server..."; RunFlask]).
    { unfold main_app, set_telegram_webhook_async, import_warnings, url_set.
      destruct webhook_url as [u|]; [|reflexivity].
      destruct (String.eqb u EmptyString); [reflexivity|discriminate]. }
    rewrite Hm. split; [reflexivity|]. split; [reflexivity|].
    split; [simpl; tauto|]. not_in.
  - intros u -> Hu.
    assert (E : String.eqb u EmptyString = false)
      by (destruct (String.eqb u EmptyString) eqn:E; [apply String.eqb_eq in E; contradiction|reflexivity]).
    unfold main_app, set_telegram_webhook_async, import_warnings, url_set. rewrite E. simpl.
    destruct set_result as [e|]; simpl.
    + split; [tauto|]. split; [|discriminate].
      intros e' _. split; [tauto|]. not_in.
    + split; [tauto|]. split; [discriminate|].
      intros _. split; [tauto|]. not_in.
Qed.

Lemma C7_witness :
  In (SetWebhook "https://notify.example.com/telegram-webhook" true)
     (main_app (Some "https://notify.example.com") (Some "Unauthorized")) /\
  In (Exit 1) (main_app (Some "https://notify.example.com") (Some "Unauthorized")).
Proof.
  destruct (proj2 (C7_webhook_registration (Some "https://notify.example.com") (Some "Unauthorized"))
              "https://notify.example.com" eq_refl ltac:(discriminate)) as [H1 [H2 _]].
  split; [exact H1|]. exact (proj1 (H2 "Unauthorized" eq_refl)).
Defined.

End WebhookFacts.

(* ================================================================== *)
(** * Further properties of the code *)

(** ** Dispatch of inbound updates *)



Lemma lower_ascii_idem (c : ascii) : lower_ascii (lower_ascii c) = lower_ascii c.
Proof. destruct c as [[] [] [] [] [] [] [] []]; reflexivity. Qed.

Lemma lower_idem (s : string) : lower (lower s) = lower s.
Proof. induction s as [|c s IH]; simpl; [reflexivity|]. rewrite lower_ascii_idem, IH. reflexivity. Qed.

Lemma lower_ascii_eqb_at (c : ascii) :
  Ascii.eqb (lower_ascii c) "@" = Ascii.eqb c "@".
Proof. destruct c as [[] [] [] [] [] [] [] []]; reflexivity. Qed.

Lemma lower_eqb_empty (s : string) : String.eqb (lower s) "" = String.eqb s "".
Proof. destruct s; reflexivity. Qed.

Lemma substring_lower (n m : nat) (s : string) :
  substring n m (lower s) = lower (substring n m s).
Proof.
  revert n m. induction s as [|c s IH]; intros n m.
  - destruct n, m; reflexivity.
  - destruct n as [|n]; simpl.
    + destruct m as [|m]; simpl; [reflexivity|]. rewrite IH. reflexivity.
    + apply IH.
Qed.

Lemma split_on_lower (s : string) :
  split_on "@" (lower s) = map lower (split_on "@" s).
Proof.
  induction s as [|c s IH]; simpl; [reflexivity|].
  rewrite lower_ascii_eqb_at, IH.
  destruct (Ascii.eqb c "@"); [reflexivity|].
  destruct (split_on "@" s); reflexivity.
Qed.

Definition lower_text (u : update) : update :=
  mk_update (upd_kind u) (upd_chat_id u) (upd_user u) (lower (upd_text u))
            (upd_command_entity u).

Lemma check_update_lower (bot : string) (h : handler) (u : update) :
  check_update bot h (lower_text u) = check_update bot h u /\
  check_update (lower bot) h u = check_update bot h u.
Proof.
  unfold check_update, lower_text, slice_1; simpl.
  destruct (upd_command_entity u) as [len|]; [|split; reflexivity].
  rewrite lower_eqb_empty, substring_lower, split_on_lower.
  destruct (String.eqb (upd_text u) ""); [split; reflexivity|].
  destruct (split_on "@" (substring 1 (len - 1) (upd_text u))) as [|p0 [|p1 r]];
    simpl; rewrite ?lower_idem; split; reflexivity.
Qed.

(** Command and bot-name matching ignore letter case: with either
    registry, an update is answered exactly as the same update with its
    text in lower case, and the bot's own name is compared case-blind. *)
Theorem dispatch_case_insensitive (bot : string) (u : update) :
  dispatch bot handlers_app (lower_text u) = dispatch bot handlers_app u /\
  dispatch bot handlers_bot (lower_text u) = dispatch bot handlers_bot u /\
  dispatch (lower bot) handlers_app u = dispatch bot handlers_app u /\
  dispatch (lower bot) handlers_bot u = dispatch bot handlers_bot u.
Proof.
  unfold handlers_app, handlers_bot; simpl.
  rewrite !(proj1 (check_update_lower bot _ u)), !(proj2 (check_update_lower bot _ u)).
  repeat split; reflexivity.
Qed.

(** ** The notification endpoint *)


(** Both endpoints read only the [chat_id] and [message] keys of the
    body: two bodies that agree on those two keys (other keys, their
    order, absent versus [null]) get the same send calls and answer. *)
Theorem handle_reads_only_two_keys (v : variant) (d d' : pydict) sub fut t :
  dict_get d "chat_id" = dict_get d' "chat_id" ->
  dict_get d "message" = dict_get d' "message" ->
  handle v d sub fut t = handle v d' sub fut t.
Proof.
  intros H1 H2. destruct v; simpl; unfold handle_app, handle_bot; rewrite H1, H2; reflexivity.
Qed.

Lemma handle_reads_only_two_keys_witness :
  handle AppPy [("message", PStr "Hi"); ("priority", PInt 3); ("chat_id", PInt 42)] None (fun _ => Some SendOk) 0%nat =
  handle AppPy [("chat_id", PInt 42); ("message", PStr "Hi")] None (fun _ => Some SendOk) 0%nat.
Proof. apply handle_reads_only_two_keys; reflexivity. Defined.

(** The two variants make the same send calls on every input, and answer
    alike whenever the request is invalid or the hand-off to the loop
    raises; they differ only in how they answer a handed-off send. *)
Theorem variants_differ_only_on_success (d : pydict) (sub : submission) (fut : future) (t : nat) :
  fst (handle_app d sub fut t) = fst (handle_bot d sub fut t) /\
  (valid d = false \/ sub <> None -> handle_app d sub fut t = handle_bot d sub fut t).
Proof.
  unfold handle_app, handle_bot, valid.
  destruct (truthy (dict_get d "chat_id")), (truthy (dict_get d "message")); simpl;
    try (split; [reflexivity|intros _; reflexivity]).
  destruct sub as [e|]; simpl; split; try reflexivity.
  intros [H|H]; [discriminate|contradiction].
Qed.

Lemma variants_differ_only_on_success_witness :
  handle_app sample_request (Some "Event loop is closed") (fun _ => None) 0%nat =
  handle_bot sample_request (Some "Event loop is closed") (fun _ => None) 0%nat.
Proof.
  apply (proj2 (variants_differ_only_on_success sample_request (Some "Event loop is closed") (fun _ => None) 0%nat)).
  right. discriminate.
Defined.

(** ** The bot token *)

(** An empty [TELEGRAM_BOT_TOKEN] stops the import of both variants, with
    different exceptions: [app.py] raises [ValueError] from its own check,
    while [telegram_bot.py] keeps the empty value (its fallback applies
    only when the variable is unset) and raises [InvalidToken] when line
    26 builds the [Bot]. [telegram_bot.py] warns whenever the token equals
    the fallback string, even when it was set explicitly. *)
Theorem empty_token_variants (e : env) :
  (e "TELEGRAM_BOT_TOKEN" = Some EmptyString ->
     (exists msg logs, load_token_app e = Raised "ValueError" msg logs) /\
     (exists msg logs, load_token_bot e = Raised "InvalidToken" msg logs)) /\
  (e "TELEGRAM_BOT_TOKEN" = Some fallback_token ->
     exists logs, logs <> [] /\ load_token_bot e = Loaded fallback_token logs).
Proof.
  unfold load_token_app, load_token_bot. split.
  - intros H. rewrite H. simpl. split; eauto.
  - intros H. rewrite H. simpl. eexists. split; [|reflexivity]. discriminate.
Qed.

Lemma empty_token_variants_witness :
  (exists msg logs, load_token_app (env_of [("TELEGRAM_BOT_TOKEN", EmptyString)]) = Raised "ValueError" msg logs) /\
  (exists msg logs, load_token_bot (env_of [("TELEGRAM_BOT_TOKEN", EmptyString)]) = Raised "InvalidToken" msg logs).
Proof. apply (proj1 (empty_token_variants (env_of [("TELEGRAM_BOT_TOKEN", EmptyString)]))). reflexivity. Defined.

(** ** The HTML mention in the [/start] reply *)

Module StartReplyFacts.
Import StartReply.

Lemma has_char_app (c : ascii) (a b : string) :
  has_char c (a ++ b) = has_char c a || has_char c b.
Proof. induction a as [|c' a IH]; simpl; [reflexivity|]. rewrite IH, orb_assoc. reflexivity. Qed.

Lemma replace_no_char (c d : ascii) (rep s : string) :
  has_char c rep = false -> (c = d \/ has_char c s = false) ->
  has_char c (replace_char d rep s) = false.
Proof.
  intros Hrep. induction s as [|c' s IH]; simpl; intros Hs; [reflexivity|].
  destruct (Ascii.eqb c' d) eqn:E.
  - rewrite has_char_app, Hrep. simpl. apply IH.
    destruct Hs as [Hs|Hs]; [left; exact Hs|].
    apply orb_false_elim in Hs as [_ Hs]. right. exact Hs.
  - simpl. apply orb_false_intro.
    + destruct Hs as [->|Hs].
      * exact E.
      * apply orb_false_elim in Hs as [Hs _]. exact Hs.
    + apply IH. destruct Hs as [Hs|Hs]; [left; exact Hs|].
      apply orb_false_elim in Hs as [_ Hs]. right. exact Hs.
Qed.

Lemma replace_absent (d : ascii) (rep s : string) :
  has_char d s = false -> replace_char d rep s = s.
Proof.
  induction s as [|c s IH]; simpl; intros H; [reflexivity|].
  apply orb_false_elim in H as [H1 H2]. rewrite H1, (IH H2). reflexivity.
Qed.

Lemma html_escape_no_markup (s : string) :
  has_char "<"%char (html_escape s) = false /\
  has_char ">"%char (html_escape s) = false /\
  has_char dq (html_escape s) = false /\
  has_char "'"%char (html_escape s) = false.
Proof.
  unfold html_escape; cbv zeta.
  repeat split;
    repeat (apply replace_no_char; [reflexivity | first [left; reflexivity | right]]).
Qed.

Lemma html_escape_plain (s : string) :
  forallb (fun c => negb (has_char c s)) ["&"%char; "<"%char; ">"%char; dq; "'"%char] = true ->
  html_escape s = s.
Proof.
  simpl. intros H.
  destruct (has_char "&"%char s) eqn:H1; [discriminate|].
  destruct (has_char "<"%char s) eqn:H2; [discriminate|].
  destruct (has_char ">"%char s) eqn:H3; [discriminate|].
  destruct (has_char dq s) eqn:H4; [discriminate|].
  destruct (has_char "'"%char s) eqn:H5; [discriminate|].
  unfold html_escape; cbv zeta.
  rewrite (replace_absent _ _ s H1), (replace_absent _ _ s H2), (replace_absent _ _ s H3),
    (replace_absent _ _ s H4), (replace_absent _ _ s H5).
  reflexivity.
Qed.

(** The [/start] reply links to the user's id and shows the user's full
    name HTML-escaped: the shown name contains no [<], [>], double or
    single quote, so it cannot add markup of its own, and a name free of
    [&], [<], [>] and quotes is shown as it is. *)
Theorem start_reply_escapes_name (usr : user) :
  start_html usr =
    ["Hi <a href=" ++ String dq ("tg://user?id=" ++ str_of_Z (user_id usr) ++ String dq ">") ++
     html_escape (full_name usr) ++
     "</a>! I'm your notification bot. Send /mychatid to get your unique Telegram Chat ID."] /\
  has_char "<"%char (html_escape (full_name usr)) = false /\
  has_char ">"%char (html_escape (full_name usr)) = false /\
  has_char dq (html_escape (full_name usr)) = false /\
  has_char "'"%char (html_escape (full_name usr)) = false /\
  (forallb (fun c => negb (has_char c (full_name usr))) ["&"%char; "<"%char; ">"%char; dq; "'"%char] = true ->
   html_escape (full_name usr) = full_name usr).
Proof.
  split.
  - unfold start_html, mention_html, mention_html_of.
    rewrite !string_app_assoc. reflexivity.
  - split; [apply html_escape_no_markup|].
    split; [apply html_escape_no_markup|].
    split; [apply html_escape_no_markup|].
    split; [apply html_escape_no_markup|].
    apply html_escape_plain.
Qed.

Lemma start_reply_escapes_name_witness :
  html_escape (full_name (mk_user 99 "Ava" (Some "Lind"))) = "Ava Lind".
Proof.
  apply (proj2 (proj2 (proj2 (proj2 (proj2 (start_reply_escapes_name (mk_user 99 "Ava" (Some "Lind")))))))).
  reflexivity.
Defined.

End StartReplyFacts.
